(** * convert_oct_data: the conversion pipeline of [main.cpp]

    A shallow embedding of the file-name derivation ([createFilename]),
    the anonymisation pass ([anonymisingOct]), the per-file conversion
    ([convertFile]) and the directory walk ([convertFilesFromDir]),
    followed by the properties the specification states about them. *)

From Stdlib Require Import List String Ascii ZArith Bool Lia.
From Stdlib Require Import DecimalString DecimalZ.
Import ListNotations.

Set Implicit Arguments.

Local Open Scope string_scope.
Local Open Scope list_scope.

(** String concatenation, written apart from the [++] of lists. *)
Infix "+:+" := String.append (at level 60, right associativity).

(** ** Strings *)

(** [std::string::empty]. *)
Definition empty (s : string) : bool :=
  match s with
  | EmptyString => true
  | String _ _ => false
  end.

(** [rsplit c s] cuts [s] at the last occurrence of [c], as
    [std::string::rfind] followed by two [substr] calls would: the part
    before that occurrence and the part after it; [None] when [c] does
    not occur. *)
Fixpoint rsplit (c : ascii) (s : string) : option (string * string) :=
  match s with
  | EmptyString => None
  | String a s' =>
      match rsplit c s' with
      | Some (l, r) => Some (String a l, r)
      | None => if Ascii.eqb a c then Some (EmptyString, s') else None
      end
  end.

(** [boost::lexical_cast<std::string>(int)]: the decimal digits of the
    number, with a leading minus sign for a negative one.  The ids are C
    [int]s; no arithmetic is done on them, so they are kept as [Z]. *)
Definition lexical_cast (z : Z) : string :=
  NilZero.string_of_int (Z.to_int z).

(** Reading a decimal numeral back, the inverse direction of
    [lexical_cast]. *)
Definition read_decimal (s : string) : option Z :=
  option_map Z.of_int (NilZero.int_of_string s).



(** ** Paths

    Modelled from the spec: [boost::filesystem::path] is not part of
    the repository.  A path is its generic-format string; [stem] is
    "the filename without extension or directory", [extension] the
    dot-prefixed rest of the filename.  The functions follow the
    library for ordinary POSIX paths; root names are not modelled. *)
Module bfs.

Definition path := string.

Definition slash : ascii := "/"%char.
Definition dot : ascii := "."%char.

(** [path::generic_string]. *)
Definition generic_string (p : path) : string := p.

(** [path::filename]: what follows the last separator; a path that ends
    in a separator has the filename ["."], the root alone is its own
    filename. *)
Definition filename (p : path) : path :=
  match rsplit slash p with
  | None => p
  | Some (l, r) =>
      if empty r then (if empty l then "/" else ".") else r
  end.

(** [path::stem]: the filename up to its last dot; ["."] and [".."] are
    kept whole. *)
Definition stem (p : path) : path :=
  let name := filename p in
  if String.eqb name "." || String.eqb name ".." then name
  else match rsplit dot name with
       | None => name
       | Some (l, _) => l
       end.

(** [path::extension]: the filename from its last dot on, empty when
    there is none and for ["."] and [".."]. *)
Definition extension (p : path) : path :=
  let name := filename p in
  if String.eqb name "." || String.eqb name ".." then EmptyString
  else match rsplit dot name with
       | None => EmptyString
       | Some (_, r) => String dot r
       end.

(** Dropping the separators a string ends in. *)
Fixpoint strip_slashes (s : string) : string :=
  match s with
  | EmptyString => EmptyString
  | String a s' =>
      match strip_slashes s' with
      | EmptyString => if Ascii.eqb a slash then EmptyString else String a EmptyString
      | t => String a t
      end
  end.

(** [path::branch_path] (the older name of [parent_path]): the path
    without its filename and without the separators before it; the root
    directory is kept. *)
Definition branch_path (p : path) : path :=
  match rsplit slash p with
  | None => EmptyString
  | Some (l, r) =>
      match strip_slashes l with
      | EmptyString => if empty r then EmptyString else "/"
      | t => t
      end
  end.

(** Whether a string ends in a separator. *)
Fixpoint ends_with_slash (s : string) : bool :=
  match s with
  | EmptyString => false
  | String a EmptyString => Ascii.eqb a slash
  | String _ s' => ends_with_slash s'
  end.

(** [operator/]: appending an empty path changes nothing; otherwise a
    separator is put between the two unless one is already there. *)
Definition append (p q : path) : path :=
  match q with
  | EmptyString => p
  | String a _ =>
      if Ascii.eqb a slash || empty p || ends_with_slash p
      then p +:+ q
      else p +:+ "/" +:+ q
  end.

(** [operator!=] of a path and a C string: the comparison is by
    characters, so it distinguishes upper and lower case. *)
Definition neq (p : path) (s : string) : bool := negb (String.eqb p s).

End bfs.

Declare Scope path_scope.
Delimit Scope path_scope with path.
Infix "/" := bfs.append : path_scope.

(** ** Options *)

Inductive OutputFormat := xoct | octbin | img.

(** Modelled from the spec: the two option structs of the octdata
    library, with the fields [main] sets. *)
Record FileReadOptions := {
  fillEmptyPixelWhite : bool;
  registerBScanns : bool;
  libPath : string
}.

Record FileWriteOptions := {
  octBinFlat : bool
}.

Record Options := {
  outputFormat : OutputFormat;
  addOldFilename : bool;
  anonymising : bool;
  outputPath : bfs.path;
  optFileRead : FileReadOptions;
  optWrite : FileWriteOptions
}.

Definition getExtention (format : OutputFormat) : string :=
  match format with
  | xoct => ".xoct"
  | octbin => ".octbin"
  | img => ".img"
  end.

(** ** The scan record

    Modelled from the spec: the classes of the octdata library
    ([OctData::OCT], [Patient], [Study], [Series], [Date]) are not part
    of the repository.  Each level of the hierarchy owns a
    [std::map<int, T*>] of its substructures; the map appears here as
    the sequence of pairs its iteration yields, so that [begin()] is the
    head of the list and [size() == 0] the empty list.  A null pointer
    stored in the map is [None].  What a series contains is opaque to
    the pipeline and stays a parameter. *)
Section Model.

Context {Series : Type}.

Definition SubstructureMap (T : Type) : Type := list (Z * option T).

(** A possibly-empty calendar date with separately settable day, month
    and year. *)
Record Date := {
  isEmpty : bool;
  year : Z;
  month : Z;
  day : Z
}.

Definition setDay (v : Z) (d : Date) : Date :=
  {| isEmpty := isEmpty d; year := year d; month := month d; day := v |}.

Definition setMonth (v : Z) (d : Date) : Date :=
  {| isEmpty := isEmpty d; year := year d; month := v; day := day d |}.

Record Study := {
  series : SubstructureMap Series
}.

Record Patient := {
  getId : string;
  getSurname : string;
  getForename : string;
  getTitle : string;
  getBirthdate : Date;
  studies : SubstructureMap Study
}.

Definition setSurname (v : string) (p : Patient) : Patient :=
  {| getId := getId p; getSurname := v; getForename := getForename p;
     getTitle := getTitle p; getBirthdate := getBirthdate p;
     studies := studies p |}.

Definition setForename (v : string) (p : Patient) : Patient :=
  {| getId := getId p; getSurname := getSurname p; getForename := v;
     getTitle := getTitle p; getBirthdate := getBirthdate p;
     studies := studies p |}.

Definition setTitle (v : string) (p : Patient) : Patient :=
  {| getId := getId p; getSurname := getSurname p;
     getForename := getForename p; getTitle := v;
     getBirthdate := getBirthdate p; studies := studies p |}.

Definition setBirthdate (v : Date) (p : Patient) : Patient :=
  {| getId := getId p; getSurname := getSurname p;
     getForename := getForename p; getTitle := getTitle p;
     getBirthdate := v; studies := studies p |}.

Definition OCT : Type := SubstructureMap Patient.

(** ** createFilename (main.cpp, lines 58-90) *)

Definition createFilename (octdata : OCT) (sourceFilename : bfs.path)
    (opt : Options) : string :=
  let oldFileName := bfs.generic_string (bfs.stem sourceFilename) in
  match octdata with
  | [] => oldFileName
  | (_, None) :: _ => oldFileName
  | (_, Some p) :: _ =>
      match studies p with
      | [] => oldFileName
      | (studyId, s) :: _ =>
          let destFileName := getId p in
          let destFileName :=
            if empty destFileName then "unknown" else destFileName in
          match s with
          | None => destFileName
          | Some s =>
              match series s with
              | [] => destFileName
              | (seriesId, _) :: _ =>
                  let destFileName :=
                    destFileName +:+
                    ("_" +:+ lexical_cast studyId +:+ "_" +:+ lexical_cast seriesId) in
                  if addOldFilename opt
                  then destFileName +:+
                       (String "_" (bfs.generic_string (bfs.stem sourceFilename)))
                  else destFileName
              end
          end
      end
  end.

(** ** anonymisingOct (main.cpp, lines 92-113)

    The loop visits every pair of the map and rewrites the patient it
    points to; a null pointer is left alone. *)

Definition anonymisingPatient (pat : Patient) : Patient :=
  let pat := setSurname EmptyString pat in
  let pat := setForename EmptyString pat in
  let pat := setTitle EmptyString pat in
  let d := getBirthdate pat in
  if negb (isEmpty d)
  then
    let d := setDay 1 d in
    let d := setMonth 1 d in
    setBirthdate d pat
  else pat.

Definition anonymisingPair (pair : Z * option Patient) : Z * option Patient :=
  match pair with
  | (k, Some pat) => (k, Some (anonymisingPatient pat))
  | (k, None) => (k, None)
  end.

Definition anonymisingOct (octData : OCT) : OCT :=
  map anonymisingPair octData.

End Model.

Arguments Study : clear implicits.
Arguments Patient : clear implicits.
Arguments OCT : clear implicits.

(** ** The environment of a conversion

    Modelled from the spec: the codec ([OctData::OctFileRead]) and the
    file system are external collaborators.  [W] is the state of the
    world outside the program (the files on disk); the codec and
    [boost::filesystem] read and change it.

    [openFile] returns the record by value and [main.cpp] receives no
    status with it, so a load can fail in one way only that the caller
    could tell from a successful one: by raising ([LoadError]).  A load
    that returns normally, with however little in the record, is
    [Loaded].  [bfs::exists] is called in its throwing form and nothing
    in [main.cpp] catches what it throws. *)

Inductive load_result (Series : Type) :=
| Loaded (octdata : OCT Series)
| LoadError.

Arguments LoadError {Series}.

(** How a call ends: it returns, or an exception leaves it. *)
Inductive outcome (A : Type) :=
| Done (a : A)
| Raised.

Arguments Raised {A}.

(** One entry of a directory enumeration: [dir->path()] and
    [bfs::is_directory( *dir )]. *)
Record directory_entry := {
  entry_path : bfs.path;
  is_directory : bool
}.

Class Environment (Series W : Type) := {
  (** [OctData::OctFileRead::openFile] *)
  openFile : bfs.path -> FileReadOptions -> W -> load_result Series;
  (** [OctData::OctFileRead::writeFile]: success or failure, and the
      world after the attempt *)
  writeFile : bfs.path -> OCT Series -> FileWriteOptions -> W -> bool * W;
  (** [OctData::OctFileRead::isLoadable] *)
  isLoadable : string -> W -> bool;
  (** [bfs::exists], in the form [main.cpp] calls it: the answer, or
      the [filesystem_error] it throws when the path cannot be
      examined *)
  exists_ : bfs.path -> W -> outcome bool;
  (** the entries a [bfs::recursive_directory_iterator] started at a
      path runs through, in its order.  The sequence is taken when the
      walk starts: what a walk adds to the tree are files with the
      target extension, which it would pass over without asking the
      codec. *)
  recursive_directory_iterator : bfs.path -> W -> list directory_entry
}.

(** What the program prints, by line. *)
Inductive message :=
| Zieldatei_existiert (destFileName : bfs.path)
    (* "Fehler: Zieldatei existiert: " << destFileName *)
| Zieldatei (destFileName : bfs.path)
    (* "Zieldatei: " << destFileName *)
| write_not_successful (destFileName : bfs.path).
    (* "Error: write file " << destFileName << " not successful" *)

(** What a run does that can be observed from outside: the calls into
    the codec and the lines written to the two streams. *)
Inductive event (Series : Type) :=
| EvIsLoadable (filename : string) (answer : bool)
| EvOpenFile (filename : bfs.path)
| EvWriteFile (destFileName : bfs.path) (octdata : OCT Series) (success : bool)
| EvCout (m : message)
| EvCerr (m : message).

Arguments EvIsLoadable {Series}.
Arguments EvOpenFile {Series}.
Arguments EvCout {Series}.
Arguments EvCerr {Series}.

Section Pipeline.

Context {Series W : Type} {env : Environment Series W}.

(** A computation takes the world, ends in an [outcome], and leaves the
    world it changed and the events it produced, in order. *)
Definition M (A : Type) : Type := W -> outcome A * W * list (event Series).

Definition ret {A} (a : A) : M A := fun w => (Done a, w, []).

Definition bind {A B} (m : M A) (k : A -> M B) : M B :=
  fun w =>
    match m w with
    | (Done a, w', t) =>
        let '(r, w'', t') := k a w' in (r, w'', t ++ t')
    | (Raised, w', t) => (Raised, w', t)
    end.

Definition emit (e : event Series) : M unit := fun w => (Done tt, w, [e]).

Definition call_openFile (filename : bfs.path) (o : FileReadOptions) : M (OCT Series) :=
  fun w =>
    match openFile filename o w with
    | Loaded octdata => (Done octdata, w, [EvOpenFile filename])
    | LoadError => (Raised, w, [EvOpenFile filename])
    end.

Definition call_writeFile (dest : bfs.path) (octdata : OCT Series)
    (o : FileWriteOptions) : M bool :=
  fun w =>
    let '(ok, w') := writeFile dest octdata o w in
    (Done ok, w', [EvWriteFile dest octdata ok]).

Definition call_isLoadable (filename : string) : M bool :=
  fun w =>
    let b := isLoadable filename w in (Done b, w, [EvIsLoadable filename b]).

Definition call_exists (p : bfs.path) : M bool :=
  fun w => (exists_ p w, w, []).

Definition cout (m : message) : M unit := emit (EvCout m).
Definition cerr (m : message) : M unit := emit (EvCerr m).

Notation "x <- m ;; k" := (bind m (fun x => k))
  (at level 61, m at next level, right associativity).
Notation "m ;;; k" := (bind m (fun _ => k))
  (at level 61, right associativity).

(** ** convertFile (main.cpp, lines 115-143) *)

(** Lines 119-126: the destination of a loaded record. *)
Definition destination (octdata : OCT Series) (filename : bfs.path)
    (opt : Options) : bfs.path :=
  let destFileName : bfs.path := createFilename octdata filename opt in
  let destFileName :=
    if empty (outputPath opt)
    then (bfs.branch_path filename / destFileName)%path
    else (outputPath opt / destFileName)%path in
  destFileName +:+ getExtention (outputFormat opt).

Definition convertFile (filename : bfs.path) (opt : Options) : M unit :=
  octdata <- call_openFile filename (optFileRead opt) ;;
  let destFileName := destination octdata filename opt in
  found <- call_exists destFileName ;;
  if found
  then cerr (Zieldatei_existiert destFileName)
  else
    cout (Zieldatei destFileName) ;;;
    if negb (empty destFileName)
    then
      let octdata :=
        if anonymising opt then anonymisingOct octdata else octdata in
      writeSuccess <- call_writeFile destFileName octdata (optWrite opt) ;;
      if negb writeSuccess
      then cerr (write_not_successful destFileName)
      else ret tt
    else ret tt.

(** ** convertFilesFromDir (main.cpp, lines 146-163)

    The [while] loop, over the entries the iterator still has to
    yield. *)
Fixpoint directory_loop (dir : list directory_entry) (opt : Options) : M unit :=
  match dir with
  | [] => ret tt
  | entry :: dir' =>
      (if negb (is_directory entry)
       then
         if bfs.neq (bfs.extension (entry_path entry))
                    (getExtention (outputFormat opt))
         then
           let filename := bfs.generic_string (entry_path entry) in
           loadable <- call_isLoadable filename ;;
           if loadable then convertFile filename opt else ret tt
         else ret tt
       else ret tt) ;;;
      directory_loop dir' opt
  end.

Definition convertFilesFromDir (search_here : bfs.path) (opt : Options) : M unit :=
  fun w => directory_loop (recursive_directory_iterator search_here w) opt w.

(** ** Reading a trace *)

(** The files handed to [convertFile], in order: every conversion
    starts by opening its file. *)
Fixpoint conversions (t : list (event Series)) : list bfs.path :=
  match t with
  | [] => []
  | EvOpenFile f :: t' => f :: conversions t'
  | _ :: t' => conversions t'
  end.

(** The files put to the loadability probe, with its answers. *)
Fixpoint probes (t : list (event Series)) : list (string * bool) :=
  match t with
  | [] => []
  | EvIsLoadable f b :: t' => (f, b) :: probes t'
  | _ :: t' => probes t'
  end.

(** The destinations a write was attempted on. *)
Fixpoint writes (t : list (event Series)) : list bfs.path :=
  match t with
  | [] => []
  | EvWriteFile d _ _ :: t' => d :: writes t'
  | _ :: t' => writes t'
  end.

(** The lines written to [std::cerr]. *)
Fixpoint errors (t : list (event Series)) : list message :=
  match t with
  | [] => []
  | EvCerr m :: t' => m :: errors t'
  | _ :: t' => errors t'
  end.

End Pipeline.

(** ** What the claims speak of *)

Section Relations.

Context {Series : Type}.

(** The name [createFilename] starts from once the first patient has a
    study: the patient id, or "unknown" for an empty one. *)
Definition destName (p : Patient Series) : string :=
  if empty (getId p) then "unknown" else getId p.

(** The cases in which [createFilename] falls back on the old file
    name: no patient, a null first patient, or a first patient without
    studies. *)
Definition keeps_old_name (octdata : OCT Series) : bool :=
  match octdata with
  | [] => true
  | (_, None) :: _ => true
  | (_, Some p) :: _ =>
      match studies p with
      | [] => true
      | _ :: _ => false
      end
  end.

(** [pat'] carries what anonymisation promises about [pat]: no names,
    and a birthdate that is still empty, or cut down to its year. *)
Definition anonymised (pat pat' : Patient Series) : Prop :=
  getSurname pat' = EmptyString /\
  getForename pat' = EmptyString /\
  getTitle pat' = EmptyString /\
  if isEmpty (getBirthdate pat)
  then getBirthdate pat' = getBirthdate pat
  else isEmpty (getBirthdate pat') = false /\
       day (getBirthdate pat') = 1%Z /\
       month (getBirthdate pat') = 1%Z /\
       year (getBirthdate pat') = year (getBirthdate pat).

(** Putting the names and the day and month of [pat] back into
    [pat']. *)
Definition restore (pat pat' : Patient Series) : Patient Series :=
  let d := getBirthdate pat in
  setBirthdate (setMonth (month d) (setDay (day d) (getBirthdate pat')))
    (setTitle (getTitle pat)
       (setForename (getForename pat)
          (setSurname (getSurname pat) pat'))).

(** [pat'] differs from [pat] in nothing but the names and the day and
    month of the birthdate. *)
Definition same_but_demographics (pat pat' : Patient Series) : Prop :=
  getId pat' = getId pat /\ studies pat' = studies pat /\
  isEmpty (getBirthdate pat') = isEmpty (getBirthdate pat) /\
  year (getBirthdate pat') = year (getBirthdate pat) /\
  restore pat pat' = pat.

(** Two maps with the same keys in the same order, null at the same
    keys, whose patients are related by [R]. *)
Definition pairwise (R : Patient Series -> Patient Series -> Prop)
    (o o' : OCT Series) : Prop :=
  Forall2
    (fun e e' =>
       fst e = fst e' /\
       match snd e, snd e' with
       | Some pat, Some pat' => R pat pat'
       | None, None => True
       | _, _ => False
       end) o o'.

(** The record [convertFile] hands to [writeFile] (lines 136-139). *)
Definition written (octdata : OCT Series) (opt : Options) : OCT Series :=
  if anonymising opt then anonymisingOct octdata else octdata.

End Relations.

(** The two tests of the walk that an entry passes before the codec is
    asked about it (lines 152 and 154): not a directory, and an
    extension other than the target's. *)
Definition candidate (opt : Options) (entry : directory_entry) : bool :=
  negb (is_directory entry) &&
  bfs.neq (bfs.extension (entry_path entry)) (getExtention (outputFormat opt)).

(** ** One turn of the walk *)

Section Turn.

Context {Series W : Type} {env : Environment Series W}.

(** The body of the loop of [convertFilesFromDir] (lines 152-160): what
    is done with one entry. *)
Definition directory_turn (entry : directory_entry) (opt : Options)
    : M (Series := Series) (W := W) unit :=
  if negb (is_directory entry)
  then
    if bfs.neq (bfs.extension (entry_path entry))
               (getExtention (outputFormat opt))
    then
      let filename := bfs.generic_string (entry_path entry) in
      bind (call_isLoadable filename)
           (fun loadable =>
              if loadable then convertFile filename opt else ret tt)
    else ret tt
  else ret tt.

(** The three tests of lines 152, 154 and 157, for an entry in the
    world [w]. *)
Definition accepted (opt : Options) (entry : directory_entry) (w : W) : bool :=
  candidate opt entry && isLoadable (entry_path entry) w.

End Turn.

(** ** main (main.cpp, lines 165-241)

    Two parts of [main] are embedded: the choice of the output format
    from the string of the command line, and the loop over the paths of
    the command line.  The parsing of the command line itself is done by
    [boost::program_options] and is left out. *)

(** Lines 215-223: the format named on the command line; [None] is the
    branch that prints "Wrong output format" and returns 1. *)
Definition outputFormat_of_string (outputFormatString : string)
    : option OutputFormat :=
  if String.eqb outputFormatString "xoct" then Some xoct
  else if String.eqb outputFormatString "octbin" then Some octbin
  else if String.eqb outputFormatString "img" then Some img
  else None.

Section Main.

Context {Series W : Type} {env : Environment Series W}.

(** [bfs::is_directory] of a path, which only [main] asks for. *)
Variable is_directory_at : bfs.path -> W -> bool.


(** The records handed to [writeFile], in order. *)
Fixpoint written_records (t : list (event Series)) : list (OCT Series) :=
  match t with
  | [] => []
  | EvWriteFile _ octdata _ :: t' => octdata :: written_records t'
  | _ :: t' => written_records t'
  end.

End Main.

(** ** What the further properties speak of *)

(** [c] does not occur in [s]. *)
Fixpoint no_char (c : ascii) (s : string) : bool :=
  match s with
  | EmptyString => true
  | String a s' => negb (Ascii.eqb a c) && no_char c s'
  end.

Section MoreRelations.

Context {Series : Type}.

(** What [createFilename] reads of a record: the id of the first
    patient, the id of its first study and the id of that study's first
    series, as far as they are there. *)
Definition naming_key (octdata : OCT Series)
    : option (string * Z * option Z) :=
  match octdata with
  | [] => None
  | (_, None) :: _ => None
  | (_, Some p) :: _ =>
      match studies p with
      | [] => None
      | (studyId, s) :: _ =>
          Some (getId p, studyId,
                match s with
                | None => None
                | Some s =>
                    match series s with
                    | [] => None
                    | (seriesId, _) :: _ => Some seriesId
                    end
                end)
      end
  end.

(** A patient without names whose birthdate, if there is one, has day 1
    and month 1. *)
Definition anonymous (pat : Patient Series) : Prop :=
  getSurname pat = EmptyString /\
  getForename pat = EmptyString /\
  getTitle pat = EmptyString /\
  (isEmpty (getBirthdate pat) = false ->
   day (getBirthdate pat) = 1%Z /\ month (getBirthdate pat) = 1%Z).

(** A record all of whose patients are [anonymous]. *)
Definition all_anonymous (octdata : OCT Series) : Prop :=
  Forall (fun e => match snd e with
                   | Some pat => anonymous pat
                   | None => True
                   end) octdata.

(** The one shape a call of [writeFile] has: the destination of some
    loaded record, and that record as [convertFile] hands it on. *)
Definition write_shape (opt : Options) (e : event Series) : Prop :=
  match e with
  | EvWriteFile d o _ =>
      exists octdata filename,
        d = destination octdata filename opt /\ o = written octdata opt
  | _ => True
  end.

End MoreRelations.

(** ** A small world to run the pipeline in

    Files on a disk without directories of their own: a path is bound
    to a scan the codec reads, to a file the probe accepts and the
    reader then fails on, or to something that is no scan, which the
    probe rejects and for which the reader comes back with an empty
    record.  Writing fails below the directory [ro], and asking
    whether something exists below the directory [locked] raises. *)
Module Disk.

Inductive file :=
| Scan (octdata : OCT unit)
| Broken
| Other.

Definition disk := list (bfs.path * file).

Fixpoint lookup (p : bfs.path) (w : disk) : option file :=
  match w with
  | [] => None
  | (q, f) :: w' => if String.eqb p q then Some f else lookup p w'
  end.

Definition read_only (p : bfs.path) : bool := prefix "ro/" p.

(** The directory [locked] may not be searched: nothing below it can be
    examined. *)
Definition locked (p : bfs.path) : bool := prefix "locked/" p.

#[export] Instance env : Environment unit disk := {|
  openFile f _ w :=
    match lookup f w with
    | Some (Scan o) => Loaded o
    | Some Broken => LoadError
    | _ => Loaded []
    end;
  writeFile d o _ w :=
    if read_only d then (false, w) else (true, w ++ [(d, Scan o)]);
  isLoadable f w :=
    match lookup f w with
    | Some (Scan _) | Some Broken => true
    | _ => false
    end;
  exists_ p w :=
    if locked p then Raised
    else match lookup p w with
         | Some _ => Done true
         | None => Done false
         end;
  recursive_directory_iterator p w :=
    map (fun e => {| entry_path := fst e; is_directory := false |})
        (filter (fun e => prefix (p +:+ "/") (fst e)) w)
|}.

Definition date (y m d : Z) : Date :=
  {| isEmpty := false; year := y; month := m; day := d |}.

Definition no_date : Date :=
  {| isEmpty := true; year := 0; month := 0; day := 0 |}.

(** One patient with one study and one series. *)
Definition scan (id surname : string) (born : Date) (studyId seriesId : Z)
    : OCT unit :=
  [(0%Z, Some {| getId := id; getSurname := surname; getForename := "Jo";
                 getTitle := "Dr"; getBirthdate := born;
                 studies := [(studyId, Some {| series := [(seriesId, Some tt)] |})] |})].

Definition options (format : OutputFormat) (old anon : bool) : Options :=
  {| outputFormat := format; addOldFilename := old; anonymising := anon;
     outputPath := EmptyString;
     optFileRead := {| fillEmptyPixelWhite := false; registerBScanns := true;
                       libPath := EmptyString |};
     optWrite := {| octBinFlat := true |} |}.

(** The options [opt] with the output directory [dir]. *)
Definition into (dir : bfs.path) (opt : Options) : Options :=
  {| outputFormat := outputFormat opt; addOldFilename := addOldFilename opt;
     anonymising := anonymising opt; outputPath := dir;
     optFileRead := optFileRead opt; optWrite := optWrite opt |}.

(** The scan of patient P42, study 3, series 7. *)
Definition P42 : OCT unit := scan "P42" "Doe" (date 1980 5 17) 3 7.

(** A patient without studies. *)
Definition no_studies (id : string) : OCT unit :=
  [(0%Z, Some {| getId := id; getSurname := "Doe"; getForename := "Jo";
                 getTitle := "Dr"; getBirthdate := no_date; studies := [] |})].

(** A patient whose only study has no series. *)
Definition no_series (id : string) : OCT unit :=
  [(0%Z, Some {| getId := id; getSurname := "Doe"; getForename := "Jo";
                 getTitle := "Dr"; getBirthdate := no_date;
                 studies := [(3%Z, Some {| series := [] |})] |})].

(** The destination of [in/b.raw] is taken. *)
Definition taken : disk :=
  [("in/b.raw", Scan P42); ("in/P42_3_7.xoct", Other);
   ("in/c.raw", Scan (scan "Q1" "Roe" no_date 1 2))].

(** A directory with a file that is in the target format already and a
    scan to convert. *)
Definition fresh : disk := [("in/a.xoct", Other); ("in/b.raw", Scan P42)].

(** The same directory once every file carries the target extension. *)
Definition converted : disk :=
  [("in/a.xoct", Other); ("in/P42_3_7.xoct", Scan (anonymisingOct P42))].


(** A file the reader fails on, before a scan that converts without
    trouble. *)
Definition broken_first : disk := [("in/a.raw", Broken); ("in/b.raw", Scan P42)].

(** Two scans below a directory that cannot be written to. *)
Definition read_only_first : disk :=
  [("ro/b.raw", Scan P42); ("ro/sub/c.raw", Scan (scan "Q1" "Roe" no_date 1 2))].


(** Two patients, the first with two studies of two series each. *)
Definition crowded : OCT unit :=
  [(4%Z, Some {| getId := "P42"; getSurname := "Roe"; getForename := "Al";
                 getTitle := EmptyString; getBirthdate := no_date;
                 studies := [(3%Z, Some {| series := [(7%Z, None); (8%Z, Some tt)] |});
                             (5%Z, Some {| series := [(1%Z, Some tt)] |})] |});
   (9%Z, Some {| getId := "Q1"; getSurname := "Poe"; getForename := "Ed";
                 getTitle := "Dr"; getBirthdate := date 1970 2 3;
                 studies := [] |})].

(** Two sources in different directories that hold the same scan. *)
Definition twins : disk := [("a/x.raw", Scan P42); ("b/y.raw", Scan P42)].


End Disk.

(** * Properties *)

(** ** Strings and numerals *)

Lemma append_assoc (a b c : string) : (a +:+ b) +:+ c = a +:+ (b +:+ c).
Proof. induction a as [|x a IH]; simpl; [reflexivity | now rewrite IH]. Qed.

Lemma append_empty_r (a : string) : a +:+ EmptyString = a.
Proof. induction a as [|x a IH]; simpl; [reflexivity | now rewrite IH]. Qed.

Lemma empty_append (a b : string) : empty (a +:+ b) = empty a && empty b.
Proof. destruct a; reflexivity. Qed.


(** A number printed by [lexical_cast] reads back as itself: the
    rendering is the decimal one. *)
Lemma read_decimal_lexical_cast (z : Z) : read_decimal (lexical_cast z) = Some z.
Proof.
  unfold read_decimal, lexical_cast.
  rewrite NilZero.isi.
  - simpl. now rewrite DecimalZ.of_to.
  - destruct z; simpl; intros [= H]; try discriminate;
      now apply (DecimalPos.Unsigned.to_uint_nonnil p).
  - destruct z; simpl; intros [= H];
      now apply (DecimalPos.Unsigned.to_uint_nonnil p).
Qed.

Lemma getExtention_nonempty (format : OutputFormat) :
  empty (getExtention format) = false.
Proof. destruct format; reflexivity. Qed.

(** ** createFilename *)

Section CreateFilename.

Context {Series : Type}.
Implicit Types (octdata : OCT Series) (p : Patient Series) (s : Study Series).

(** C1. When the first patient of the record has a study and that
    study has a series, [createFilename] returns the patient id ("unknown"
    exactly when the id is empty), then [_], the study id, [_] and the
    series id, both in decimal, and then [_] and the stem of the source
    file exactly when [addOldFilename] is set. *)
Theorem createFilename_patient_study_series
    octdata (sourceFilename : bfs.path) (opt : Options)
    (k : Z) p (rest : OCT Series)
    (studyId : Z) s (studies' : SubstructureMap (Study Series))
    (seriesId : Z) (ser : option Series) (series' : SubstructureMap Series) :
  octdata = (k, Some p) :: rest ->
  studies p = (studyId, Some s) :: studies' ->
  series s = (seriesId, ser) :: series' ->
  createFilename octdata sourceFilename opt =
    (if empty (getId p) then "unknown" else getId p) +:+ "_" +:+
    lexical_cast studyId +:+ "_" +:+ lexical_cast seriesId +:+
    (if addOldFilename opt then "_" +:+ bfs.stem sourceFilename else EmptyString)
  /\ read_decimal (lexical_cast studyId) = Some studyId
  /\ read_decimal (lexical_cast seriesId) = Some seriesId.
Proof.
  intros -> Hst Hse.
  split; [| split; apply read_decimal_lexical_cast].
  unfold createFilename. rewrite Hst, Hse.
  destruct (addOldFilename opt).
  - now rewrite !append_assoc.
  - now rewrite append_empty_r.
Qed.

(** C4, as amended.  When the first patient has a study, and the first
    study is a null pointer or has no series, [createFilename] returns
    the patient id, or "unknown" for an empty id, with nothing after
    it. *)
Theorem createFilename_no_series
    octdata (sourceFilename : bfs.path) (opt : Options)
    (k : Z) p (rest : OCT Series)
    (studyId : Z) (s : option (Study Series))
    (studies' : SubstructureMap (Study Series)) :
  octdata = (k, Some p) :: rest ->
  studies p = (studyId, s) :: studies' ->
  match s with
  | None => True
  | Some s => series s = []
  end ->
  createFilename octdata sourceFilename opt = destName p.
Proof.
  intros -> Hst Hs. unfold createFilename, destName. rewrite Hst.
  destruct s as [s|]; [now rewrite Hs | reflexivity].
Qed.

(** The first patient has no study: the old file name is kept, whatever
    the patient id. *)
Lemma createFilename_no_studies
    octdata (sourceFilename : bfs.path) (opt : Options)
    (k : Z) p (rest : OCT Series) :
  octdata = (k, Some p) :: rest ->
  studies p = [] ->
  createFilename octdata sourceFilename opt = bfs.stem sourceFilename.
Proof. intros -> H. unfold createFilename. now rewrite H. Qed.

Lemma createFilename_keeps_old_name octdata sourceFilename opt :
  keeps_old_name octdata = true ->
  createFilename octdata sourceFilename opt = bfs.stem sourceFilename.
Proof.
  unfold keeps_old_name, createFilename.
  destruct octdata as [|[k [p|]] rest]; try reflexivity.
  destruct (studies p); [reflexivity | discriminate].
Qed.

Lemma destName_nonempty p : empty (destName p) = false.
Proof.
  unfold destName. destruct (empty (getId p)) eqn:E; [reflexivity | exact E].
Qed.

Lemma createFilename_named_nonempty octdata sourceFilename opt :
  keeps_old_name octdata = false ->
  empty (createFilename octdata sourceFilename opt) = false.
Proof.
  unfold keeps_old_name, createFilename.
  destruct octdata as [|[k [p|]] rest]; try discriminate.
  destruct (studies p) as [|[studyId s] studies']; [discriminate |].
  intros _. fold (destName p).
  destruct s as [s|]; [| apply destName_nonempty].
  destruct (series s) as [|[seriesId ser] series']; [apply destName_nonempty |].
  destruct (addOldFilename opt);
    now rewrite ?empty_append, destName_nonempty.
Qed.

(** C5, as amended.  [createFilename] is a function of its three
    arguments.  For a record without patients it returns the stem of the
    source path, whatever the options.  Its result is empty exactly when
    it falls back on the old file name and the stem of the source path
    is empty; so it is non-empty whenever that stem is. *)
Theorem createFilename_empty_iff
    octdata (sourceFilename : bfs.path) (opt : Options) :
  createFilename (@nil (Z * option (Patient Series))) sourceFilename opt =
    bfs.stem sourceFilename
  /\ (empty (createFilename octdata sourceFilename opt) = true <->
      keeps_old_name octdata = true /\ empty (bfs.stem sourceFilename) = true)
  /\ (empty (bfs.stem sourceFilename) = false ->
      empty (createFilename octdata sourceFilename opt) = false).
Proof.
  split; [reflexivity |].
  destruct (keeps_old_name octdata) eqn:K.
  - rewrite (createFilename_keeps_old_name _ _ _ K).
    split; [split; [intros H; now split | now intros [_ H]] | trivial].
  - rewrite (createFilename_named_nonempty _ _ _ K).
    split; [split; [discriminate | now intros [H _]] | trivial].
Qed.

End CreateFilename.

(** ** anonymisingOct *)

Section Anonymising.

Context {Series : Type}.
Implicit Types (octData : OCT Series) (pat : Patient Series).

Lemma anonymisingPatient_anonymised pat :
  anonymised pat (anonymisingPatient pat).
Proof.
  unfold anonymised, anonymisingPatient.
  destruct pat as [id sn fn ti [e y m d] st]; simpl.
  destruct e; simpl; repeat split; reflexivity.
Qed.

Lemma anonymisingPatient_idem pat :
  anonymisingPatient (anonymisingPatient pat) = anonymisingPatient pat.
Proof.
  unfold anonymisingPatient.
  destruct pat as [id sn fn ti [e y m d] st]; simpl.
  destruct e; reflexivity.
Qed.

Lemma anonymisingPatient_frame pat :
  same_but_demographics pat (anonymisingPatient pat).
Proof.
  unfold same_but_demographics, restore, anonymisingPatient.
  destruct pat as [id sn fn ti [e y m d] st]; simpl.
  destruct e; simpl; repeat split; reflexivity.
Qed.

Lemma anonymisingOct_pairwise (R : Patient Series -> Patient Series -> Prop) octData :
  (forall pat, R pat (anonymisingPatient pat)) ->
  pairwise R octData (anonymisingOct octData).
Proof.
  intros HR. unfold pairwise, anonymisingOct.
  induction octData as [|[k [pat|]] octData IH]; simpl; constructor;
    simpl; auto.
Qed.

(** C2. Anonymisation keeps the keys of the record and leaves every
    patient with empty surname, forename and title; a birthdate that is
    not empty gets day 1 and month 1 and keeps its year, an empty
    birthdate stays as it is. *)
Theorem anonymisingOct_anonymised octData :
  pairwise anonymised octData (anonymisingOct octData).
Proof.
  apply anonymisingOct_pairwise, anonymisingPatient_anonymised.
Qed.

(** C8. Anonymising a record twice gives the record anonymising it once
    gives. *)
Theorem anonymisingOct_idempotent octData :
  anonymisingOct (anonymisingOct octData) = anonymisingOct octData.
Proof.
  unfold anonymisingOct. rewrite map_map.
  apply map_ext. intros [k [pat|]]; simpl; [| reflexivity].
  now rewrite anonymisingPatient_idem.
Qed.

(** C9. Anonymisation keeps the keys of the record, the nullness of its
    entries, and in every patient the id and the whole map of studies
    with their series; putting the names and the day and month of the
    birthdate back gives the patient it started from, so nothing else
    was altered. *)
Theorem anonymisingOct_frame octData :
  map fst (anonymisingOct octData) = map fst octData
  /\ pairwise same_but_demographics octData (anonymisingOct octData).
Proof.
  split.
  - unfold anonymisingOct. rewrite map_map.
    apply map_ext. now intros [k [pat|]].
  - apply anonymisingOct_pairwise, anonymisingPatient_frame.
Qed.

End Anonymising.

(** ** convertFile and the directory walk *)

Section PipelineFacts.

Context {Series W : Type} {env : Environment Series W}.
Implicit Types (w : W) (t : list (event Series)) (opt : Options)
  (filename : bfs.path) (dir : list directory_entry).

Lemma destination_nonempty (octdata : OCT Series) filename opt :
  empty (destination octdata filename opt) = false.
Proof.
  unfold destination. rewrite empty_append, getExtention_nonempty.
  apply andb_false_r.
Qed.

(** The run of [convertFile], by cases. *)
Lemma convertFile_run filename opt w :
  convertFile filename opt w =
  match openFile filename (optFileRead opt) w with
  | LoadError => (Raised, w, [EvOpenFile filename])
  | Loaded octdata =>
      let dest := destination octdata filename opt in
      match exists_ dest w with
      | Raised => (Raised, w, [EvOpenFile filename])
      | Done true =>
          (Done tt, w, [EvOpenFile filename; EvCerr (Zieldatei_existiert dest)])
      | Done false =>
          let '(ok, w') := writeFile dest (written octdata opt) (optWrite opt) w in
          (Done tt, w',
           [EvOpenFile filename; EvCout (Zieldatei dest);
            EvWriteFile dest (written octdata opt) ok] ++
           (if ok then [] else [EvCerr (write_not_successful dest)]))
      end
  end.
Proof.
  unfold convertFile, bind, call_openFile, call_exists, call_writeFile,
    cout, cerr, emit, ret, written.
  destruct (openFile filename (optFileRead opt) w) as [octdata|]; [| reflexivity].
  cbv zeta. rewrite destination_nonempty.
  destruct (exists_ (destination octdata filename opt) w) as [[|]|];
    try reflexivity.
  cbv beta iota zeta delta [negb].
  destruct (writeFile _ _ _ w) as [[|] w']; reflexivity.
Qed.

(** One turn of the loop of [convertFilesFromDir]. *)
Lemma directory_loop_cons entry dir opt w :
  directory_loop (entry :: dir) opt w =
  let filename := entry_path entry in
  if candidate opt entry
  then
    if isLoadable filename w
    then
      match convertFile filename opt w with
      | (Done _, w', t) =>
          let '(r, w'', t') := directory_loop dir opt w' in
          (r, w'', EvIsLoadable filename true :: t ++ t')
      | (Raised, w', t) => (Raised, w', EvIsLoadable filename true :: t)
      end
    else
      let '(r, w', t') := directory_loop dir opt w in
      (r, w', EvIsLoadable filename false :: t')
  else directory_loop dir opt w.
Proof.
  unfold candidate. cbn [directory_loop]. unfold bind at 1.
  destruct (is_directory entry); cbn [negb andb].
  - unfold ret. now destruct (directory_loop dir opt w) as [[r w'] t'].
  - destruct (bfs.neq _ _).
    + unfold bind, call_isLoadable, bfs.generic_string.
      destruct (isLoadable (entry_path entry) w).
      * destruct (convertFile (entry_path entry) opt w) as [[[[]|] w1] t1].
        -- cbn. now destruct (directory_loop dir opt w1) as [[r w'] t'].
        -- reflexivity.
      * unfold ret. cbn.
        now destruct (directory_loop dir opt w) as [[r w'] t'].
    + unfold ret. now destruct (directory_loop dir opt w) as [[r w'] t'].
Qed.

Lemma conversions_app t1 t2 :
  conversions (t1 ++ t2) = conversions t1 ++ conversions t2.
Proof.
  induction t1 as [|[] t1 IH]; simpl; rewrite ?IH; reflexivity.
Qed.

Lemma probes_app t1 t2 : probes (t1 ++ t2) = probes t1 ++ probes t2.
Proof.
  induction t1 as [|[] t1 IH]; simpl; rewrite ?IH; reflexivity.
Qed.

(** A conversion opens its file, once, and asks the probe nothing. *)
Lemma convertFile_trace filename opt w :
  let '(_, _, t) := convertFile filename opt w in
  conversions t = [filename] /\ probes t = [].
Proof.
  rewrite convertFile_run.
  destruct (openFile filename (optFileRead opt) w) as [octdata|]; [| now split].
  cbv zeta.
  destruct (exists_ _ w) as [[|]|]; try (now split).
  destruct (writeFile _ _ _ w) as [[|] w']; now split.
Qed.

(** A write is attempted only on a destination that does not exist. *)
Lemma convertFile_writes_fresh filename opt w (d : bfs.path) :
  let '(_, _, t) := convertFile filename opt w in
  In d (writes t) -> exists_ d w = Done false.
Proof.
  rewrite convertFile_run.
  destruct (openFile filename (optFileRead opt) w) as [octdata|]; [| intros []].
  cbv zeta.
  destruct (exists_ (destination octdata filename opt) w) as [[|]|] eqn:E;
    try (intros []).
  destruct (writeFile _ _ _ w) as [[|] w']; simpl;
    intros [<-|[]]; exact E.
Qed.

(** What the walk keeps true, whether it ends or is cut short: the
    files converted are the files the probe accepted, and the files
    probed are the first candidates of the enumeration, all of them
    when the walk returns. *)
Lemma directory_loop_trace dir opt w :
  let '(r, _, t) := directory_loop dir opt w in
  conversions t = map fst (filter snd (probes t))
  /\ exists rest,
       map entry_path (filter (candidate opt) dir) = map fst (probes t) ++ rest
       /\ (r = Done tt -> rest = []).
Proof.
  revert w. induction dir as [|entry dir IH]; intros w.
  - simpl. split; [reflexivity |]. now exists [].
  - rewrite directory_loop_cons. cbv zeta. cbn [filter].
    destruct (candidate opt entry); [| apply IH].
    destruct (isLoadable (entry_path entry) w).
    + pose proof (convertFile_trace (entry_path entry) opt w) as Hc.
      destruct (convertFile (entry_path entry) opt w) as [[[[]|] w1] t1];
        destruct Hc as [Hc Hp].
      * specialize (IH w1).
        destruct (directory_loop dir opt w1) as [[r w2] t2].
        destruct IH as [IH1 (rest & IH2 & IH3)].
        cbn [conversions probes]. rewrite conversions_app, probes_app, Hc, Hp.
        cbn. split; [now rewrite IH1 |].
        exists rest. now rewrite IH2.
      * cbn [conversions probes]. rewrite Hc, Hp. cbn.
        split; [reflexivity |].
        exists (map entry_path (filter (candidate opt) dir)).
        split; [reflexivity | discriminate].
    + specialize (IH w).
      destruct (directory_loop dir opt w) as [[r w2] t2].
      destruct IH as [IH1 (rest & IH2 & IH3)].
      cbn. split; [exact IH1 |].
      exists rest. now rewrite IH2.
Qed.

(** Entries that are no candidates leave no trace. *)
Lemma directory_loop_no_candidate dir opt w :
  (forall entry, In entry dir -> candidate opt entry = false) ->
  directory_loop dir opt w = (Done tt, w, []).
Proof.
  induction dir as [|entry dir IH]; intros H; [reflexivity |].
  rewrite directory_loop_cons. cbv zeta.
  rewrite (H entry (or_introl eq_refl)).
  apply IH. intros e He. apply H. now right.
Qed.

Lemma candidate_true opt entry :
  candidate opt entry = true <->
  is_directory entry = false /\
  bfs.extension (entry_path entry) <> getExtention (outputFormat opt).
Proof.
  unfold candidate, bfs.neq.
  rewrite andb_true_iff, !negb_true_iff, String.eqb_neq. tauto.
Qed.

End PipelineFacts.

Section PipelineClaims.

Context {Series W : Type} {env : Environment Series W}.
Implicit Types (w : W) (t : list (event Series)) (opt : Options)
  (filename : bfs.path) (dir : list directory_entry).

(** C3. When the destination computed for a loaded file exists already,
    [convertFile] writes the conflict line to [std::cerr] and returns:
    it calls neither [anonymisingOct] nor [writeFile], names no other
    destination, and leaves the world, and so the existing file, as it
    was.  A walk that meets such a file goes on with the remaining
    entries from that same world. *)
Theorem convertFile_destination_exists filename opt w (octdata : OCT Series) :
  openFile filename (optFileRead opt) w = Loaded octdata ->
  exists_ (destination octdata filename opt) w = Done true ->
  convertFile filename opt w =
    (Done tt, w,
     [EvOpenFile filename;
      EvCerr (Zieldatei_existiert (destination octdata filename opt))])
  /\ forall entry dir,
       entry_path entry = filename ->
       candidate opt entry = true ->
       isLoadable filename w = true ->
       directory_loop (entry :: dir) opt w =
         let '(r, w', t) := directory_loop dir opt w in
         (r, w',
          EvIsLoadable filename true :: EvOpenFile filename ::
          EvCerr (Zieldatei_existiert (destination octdata filename opt)) :: t).
Proof.
  intros Hload Hex.
  assert (Hrun : convertFile filename opt w =
    (Done tt, w,
     [EvOpenFile filename;
      EvCerr (Zieldatei_existiert (destination octdata filename opt))])).
  { rewrite convertFile_run, Hload. cbv zeta. now rewrite Hex. }
  split; [exact Hrun |].
  intros entry dir <- Hc Hl.
  rewrite directory_loop_cons. cbv zeta.
  rewrite Hc, Hl, Hrun.
  now destruct (directory_loop dir opt w) as [[r w'] t].
Qed.

(** C6, as amended.  Whenever [openFile] returns a record and
    [bfs::exists] returns an answer, [convertFile] returns: a
    destination that exists and a write that fails are each reported by
    one line on [std::cerr], and a walk goes on with the entries after
    that file.  No exception is caught: when [openFile] raises, or
    [bfs::exists] does for the destination of the loaded record, the
    exception leaves [convertFile] and the walk with it, before the
    remaining entries. *)
Theorem convertFile_errors_isolated filename opt w :
  (forall (octdata : OCT Series) (found : bool),
     openFile filename (optFileRead opt) w = Loaded octdata ->
     exists_ (destination octdata filename opt) w = Done found ->
     let dest := destination octdata filename opt in
     (exists w' t,
        convertFile filename opt w = (Done tt, w', t)
        /\ errors t =
             (if found then [Zieldatei_existiert dest]
              else if fst (writeFile dest (written octdata opt) (optWrite opt) w)
                   then []
                   else [write_not_successful dest])
        /\ writes t = (if found then [] else [dest]))
     /\ forall entry dir,
          entry_path entry = filename ->
          exists w' t,
            directory_loop (entry :: dir) opt w =
              let '(r, w'', t') := directory_loop dir opt w' in
              (r, w'', t ++ t'))
  /\ (openFile filename (optFileRead opt) w = LoadError \/
      (exists octdata : OCT Series,
         openFile filename (optFileRead opt) w = Loaded octdata /\
         exists_ (destination octdata filename opt) w = Raised) ->
      convertFile filename opt w = (Raised, w, [EvOpenFile filename])
      /\ forall entry dir,
           entry_path entry = filename ->
           candidate opt entry = true ->
           isLoadable filename w = true ->
           directory_loop (entry :: dir) opt w =
             (Raised, w, [EvIsLoadable filename true; EvOpenFile filename])).
Proof.
  split.
  - intros octdata found Hload Hfound dest.
    assert (Hrun : exists w' t,
      convertFile filename opt w = (Done tt, w', t)
      /\ errors t =
           (if found then [Zieldatei_existiert dest]
            else if fst (writeFile dest (written octdata opt) (optWrite opt) w)
                 then []
                 else [write_not_successful dest])
      /\ writes t = (if found then [] else [dest])).
    { rewrite convertFile_run, Hload. cbv zeta. fold dest.
      unfold dest at 1. rewrite Hfound. fold dest.
      destruct found; [now eexists _, _ |].
      destruct (writeFile dest (written octdata opt) (optWrite opt) w)
        as [[|] w']; now eexists _, _. }
    split; [exact Hrun |].
    intros entry dir <-.
    rewrite directory_loop_cons. cbv zeta.
    destruct Hrun as (w1 & t1 & Hrun & _).
    destruct (candidate opt entry).
    + destruct (isLoadable (entry_path entry) w).
      * rewrite Hrun. exists w1, (EvIsLoadable (entry_path entry) true :: t1).
        now destruct (directory_loop dir opt w1) as [[r w2] t2].
      * exists w, [EvIsLoadable (entry_path entry) false].
        now destruct (directory_loop dir opt w) as [[r w2] t2].
    + exists w, []. now destruct (directory_loop dir opt w) as [[r w2] t2].
  - intros Hraise.
    assert (Hrun : convertFile filename opt w = (Raised, w, [EvOpenFile filename])).
    { rewrite convertFile_run.
      destruct Hraise as [Hload|(octdata & Hload & Hex)]; rewrite Hload;
        [reflexivity |].
      cbv zeta. now rewrite Hex. }
    split; [exact Hrun |].
    intros entry dir <- Hc Hl.
    rewrite directory_loop_cons. cbv zeta. now rewrite Hc, Hl, Hrun.
Qed.

Lemma directory_loop_turn entry dir opt :
  directory_loop (entry :: dir) opt =
  bind (directory_turn entry opt) (fun _ => directory_loop dir opt).
Proof. reflexivity. Qed.

(** What one turn does, by the three tests. *)
Lemma directory_turn_run entry opt w :
  directory_turn entry opt w =
  let filename := entry_path entry in
  if accepted opt entry w
  then
    let '(r, w', t) := convertFile filename opt w in
    (r, w', EvIsLoadable filename true :: t)
  else
    (Done tt, w,
     if candidate opt entry then [EvIsLoadable filename false] else []).
Proof.
  unfold directory_turn, accepted, candidate, bfs.generic_string.
  destruct (is_directory entry); [reflexivity |]. cbn [negb andb].
  destruct (bfs.neq _ _); [| reflexivity]. cbn [andb].
  unfold bind, call_isLoadable, ret.
  destruct (isLoadable (entry_path entry) w); [| reflexivity].
  now destruct (convertFile (entry_path entry) opt w) as [[[[]|] w1] t1].
Qed.

(** A walk over two enumerations, one after the other. *)
Lemma directory_loop_app before dir opt w :
  directory_loop (before ++ dir) opt w =
  match directory_loop before opt w with
  | (Done _, w1, t1) =>
      let '(r, w2, t2) := directory_loop dir opt w1 in (r, w2, t1 ++ t2)
  | (Raised, w1, t1) => (Raised, w1, t1)
  end.
Proof.
  revert w. induction before as [|entry before IH]; intros w.
  - simpl. now destruct (directory_loop dir opt w) as [[r w2] t2].
  - rewrite <- app_comm_cons, !directory_loop_turn. unfold bind.
    destruct (directory_turn entry opt w) as [[[[]|] w0] t0]; [| reflexivity].
    rewrite IH.
    destruct (directory_loop before opt w0) as [[[[]|] w1] t1]; [| reflexivity].
    destruct (directory_loop dir opt w1) as [[r w2] t2].
    now rewrite app_assoc.
Qed.

(** C7, as amended.  An entry is reached when the walk over the
    entries before it has returned.  The walk converts an entry it
    reaches exactly when the entry is not a directory, its extension
    differs from the target's, and [isLoadable], asked in the world the
    walk has reached, accepts it; the probe is put to it exactly when
    it passes the first two tests, and the answer recorded is the
    codec's.  When the conversion of an entry raises, the walk ends
    there and the entries after it are not reached.  A tree in which
    every file carries the target extension is walked without
    converting, probing or changing anything. *)
Theorem convertFilesFromDir_filter_reached (search_here : bfs.path) opt w :
  (forall before entry after w1 t1,
     recursive_directory_iterator search_here w = before ++ entry :: after ->
     directory_loop before opt w = (Done tt, w1, t1) ->
     let filename := entry_path entry in
     let '(r2, w2, t2) := directory_turn entry opt w1 in
     (In filename (conversions t2) <-> accepted opt entry w1 = true)
     /\ (accepted opt entry w1 = true <->
         is_directory entry = false /\
         bfs.extension filename <> getExtention (outputFormat opt) /\
         isLoadable filename w1 = true)
     /\ probes t2 =
          (if candidate opt entry then [(filename, isLoadable filename w1)]
           else [])
     /\ (r2, w2, t2) =
          (if accepted opt entry w1
           then
             let '(r, w', t) := convertFile filename opt w1 in
             (r, w', EvIsLoadable filename true :: t)
           else
             (Done tt, w1,
              if candidate opt entry then [EvIsLoadable filename false]
              else []))
     /\ convertFilesFromDir search_here opt w =
          match r2 with
          | Done _ =>
              let '(r3, w3, t3) := directory_loop after opt w2 in
              (r3, w3, t1 ++ t2 ++ t3)
          | Raised => (Raised, w2, t1 ++ t2)
          end)
  /\ ((forall entry,
         In entry (recursive_directory_iterator search_here w) ->
         is_directory entry = false ->
         bfs.extension (entry_path entry) = getExtention (outputFormat opt)) ->
      convertFilesFromDir search_here opt w = (Done tt, w, [])).
Proof.
  split.
  - intros before entry after w1 t1 Hdir Hbefore filename. subst filename.
    assert (Hacc : accepted opt entry w1 = true <->
                   is_directory entry = false /\
                   bfs.extension (entry_path entry) <> getExtention (outputFormat opt) /\
                   isLoadable (entry_path entry) w1 = true).
    { unfold accepted. rewrite andb_true_iff, candidate_true.
      tauto. }
    assert (Hwalk : convertFilesFromDir search_here opt w =
              match directory_turn entry opt w1 with
              | (Done _, w2, t2) =>
                  let '(r3, w3, t3) := directory_loop after opt w2 in
                  (r3, w3, t1 ++ t2 ++ t3)
              | (Raised, w2, t2) => (Raised, w2, t1 ++ t2)
              end).
    { unfold convertFilesFromDir. rewrite Hdir, directory_loop_app, Hbefore.
      rewrite directory_loop_turn. unfold bind.
      destruct (directory_turn entry opt w1) as [[[[]|] w2] t2]; [| reflexivity].
      now destruct (directory_loop after opt w2) as [[r3 w3] t3]. }
    pose proof (directory_turn_run entry opt w1) as Hturn.
    cbv zeta in Hturn.
    pose proof (convertFile_trace (entry_path entry) opt w1) as Hconv.
    destruct (directory_turn entry opt w1) as [[r2 w2] t2].
    split; [| split; [exact Hacc | split; [| split; [exact Hturn | exact Hwalk]]]].
    + destruct (accepted opt entry w1).
      * destruct (convertFile (entry_path entry) opt w1) as [[r w'] t].
        pose proof (f_equal snd Hturn) as Et. cbn [snd] in Et.
        rewrite Et. cbn [conversions].
        destruct Hconv as [-> _]. split; [reflexivity | now left].
      * pose proof (f_equal snd Hturn) as Et. cbn [snd] in Et.
        rewrite Et.
        destruct (candidate opt entry); simpl; split; intros H;
          try discriminate; destruct H.
    + unfold accepted in Hturn.
      pose proof (f_equal snd Hturn) as Et. cbn [snd] in Et. rewrite Et.
      destruct (candidate opt entry); cbn [andb]; [| reflexivity].
      destruct (isLoadable (entry_path entry) w1); [| reflexivity].
      destruct (convertFile (entry_path entry) opt w1) as [[r w'] t].
      cbn [snd probes]. now destruct Hconv as [_ ->].
  - intros Hall. unfold convertFilesFromDir.
    apply directory_loop_no_candidate. intros entry He.
    unfold candidate, bfs.neq.
    destruct (is_directory entry) eqn:Hd; [reflexivity |].
    rewrite (Hall entry He Hd), String.eqb_refl. reflexivity.
Qed.


End PipelineClaims.

(** * The properties at work *)

(** ** File names *)

Import Disk.

Example name_P42 :
  createFilename (scan "P42" "Doe" (date 1980 5 17) 3 7) "data/scan001.raw"
    (options xoct false false) = "P42_3_7".
Proof. reflexivity. Qed.

Example name_unknown :
  createFilename (scan EmptyString "Doe" no_date 12 (-4)) "data/scan001.raw"
    (options octbin false false) = "unknown_12_-4".
Proof. reflexivity. Qed.

Lemma createFilename_patient_study_series_witness :
  createFilename (scan "P42" "Doe" (date 1980 5 17) 3 7) "data/scan001.raw"
    (options xoct true false) = "P42_3_7_scan001"
  /\ read_decimal "3" = Some 3%Z /\ read_decimal "7" = Some 7%Z.
Proof.
  exact (createFilename_patient_study_series
           (octdata := scan "P42" "Doe" (date 1980 5 17) 3 7)
           "data/scan001.raw" (options xoct true false)
           eq_refl eq_refl eq_refl).
Defined.

(** C4 as stated fails: the first patient exists, has the id P42 and no
    studies, and [createFilename] returns the stem of the source file,
    not the patient id. *)
Lemma createFilename_no_studies_counterexample :
  exists p : Patient unit,
    no_studies "P42" = [(0%Z, Some p)] /\ studies p = [] /\
    destName p = "P42" /\
    createFilename (no_studies "P42") "data/scan001.raw"
      (options xoct false false) = "scan001" /\
    createFilename (no_studies "P42") "data/scan001.raw"
      (options xoct false false) <> destName p.
Proof.
  eexists. split; [reflexivity |].
  repeat split; discriminate.
Qed.

Lemma createFilename_no_series_witness :
  createFilename (no_series "P42") "data/scan001.raw"
    (options xoct true false) = "P42"
  /\ createFilename (no_series EmptyString) "data/scan001.raw"
       (options xoct true false) = "unknown".
Proof.
  split.
  - exact (createFilename_no_series (octdata := no_series "P42")
             "data/scan001.raw" (options xoct true false)
             (s := Some {| series := [] |}) eq_refl eq_refl eq_refl).
  - exact (createFilename_no_series (octdata := no_series EmptyString)
             "data/scan001.raw" (options xoct true false)
             (s := Some {| series := [] |}) eq_refl eq_refl eq_refl).
Defined.

(** C5 as stated fails: the empty path, which [main] hands on like any
    other argument, has an empty stem, and for a record without patients
    that stem is the result.  The same holds of a file named [.oct]. *)
Lemma createFilename_empty_counterexample :
  createFilename (@nil (Z * option (Patient unit))) EmptyString
    (options xoct false false) = EmptyString
  /\ empty (createFilename (@nil (Z * option (Patient unit))) EmptyString
              (options xoct false false)) = true
  /\ createFilename (@nil (Z * option (Patient unit))) "data/.oct"
       (options xoct true false) = EmptyString.
Proof. repeat split. Qed.

Lemma createFilename_empty_iff_witness :
  empty (bfs.stem "data/scan001.raw") = false
  /\ createFilename (@nil (Z * option (Patient unit))) "data/scan001.raw"
       (options img true true) = "scan001"
  /\ empty (createFilename (no_studies "P42") "data/scan001.raw"
              (options img true true)) = false.
Proof.
  split; [reflexivity |]. split.
  - exact (proj1 (createFilename_empty_iff (@nil (Z * option (Patient unit)))
                    "data/scan001.raw" (options img true true))).
  - exact (proj2 (proj2 (createFilename_empty_iff (no_studies "P42")
                           "data/scan001.raw" (options img true true)))
             eq_refl).
Defined.

(** ** Anonymisation *)

Example anonymise_Doe :
  anonymisingOct (scan "P42" "Doe" (date 1980 5 17) 3 7) =
  [(0%Z, Some {| getId := "P42"; getSurname := EmptyString;
                 getForename := EmptyString;
                 getTitle := EmptyString; getBirthdate := date 1980 1 1;
                 studies := [(3%Z, Some {| series := [(7%Z, Some tt)] |})] |})].
Proof. reflexivity. Qed.

Example anonymise_no_date :
  map (fun e => option_map getBirthdate (snd e))
      (anonymisingOct (scan "P42" "Doe" no_date 3 7 ++ [(1%Z, None)])) =
  [Some no_date; None].
Proof. reflexivity. Qed.

(** ** Conversions *)

Lemma convertFile_destination_exists_witness :
  convertFile "in/b.raw" (options xoct false true) taken =
    (Done tt, taken,
     [EvOpenFile "in/b.raw"; EvCerr (Zieldatei_existiert "in/P42_3_7.xoct")])
  /\ conversions (snd (convertFilesFromDir "in" (options xoct false true) taken))
     = ["in/b.raw"; "in/c.raw"]
  /\ writes (snd (convertFilesFromDir "in" (options xoct false true) taken))
     = ["in/Q1_1_2.xoct"].
Proof.
  destruct (convertFile_destination_exists (env := env) "in/b.raw"
              (options xoct false true) taken (octdata := P42)
              eq_refl eq_refl) as [H1 H2].
  split; [exact H1 |].
  unfold convertFilesFromDir.
  change (recursive_directory_iterator "in" taken) with
    [{| entry_path := "in/b.raw"; is_directory := false |};
     {| entry_path := "in/P42_3_7.xoct"; is_directory := false |};
     {| entry_path := "in/c.raw"; is_directory := false |}].
  rewrite (H2 {| entry_path := "in/b.raw"; is_directory := false |}
              [{| entry_path := "in/P42_3_7.xoct"; is_directory := false |};
               {| entry_path := "in/c.raw"; is_directory := false |}]
              eq_refl eq_refl eq_refl).
  split; reflexivity.
Defined.

Example walk_fresh :
  convertFilesFromDir "in" (options xoct false true) fresh =
    (Done tt, fresh ++ [("in/P42_3_7.xoct", Scan (anonymisingOct P42))],
     [EvIsLoadable "in/b.raw" true; EvOpenFile "in/b.raw";
      EvCout (Zieldatei "in/P42_3_7.xoct");
      EvWriteFile "in/P42_3_7.xoct" (anonymisingOct P42) true]).
Proof. reflexivity. Qed.

Lemma convertFilesFromDir_filter_reached_witness :
  directory_loop [{| entry_path := "in/a.xoct"; is_directory := false |}]
    (options xoct false true) fresh = (Done tt, fresh, [])
  /\ accepted (options xoct false true)
       {| entry_path := "in/b.raw"; is_directory := false |} fresh = true
  /\ In "in/b.raw"
       (conversions
          (snd (directory_turn {| entry_path := "in/b.raw"; is_directory := false |}
                  (options xoct false true) fresh)))
  /\ convertFilesFromDir "in" (options xoct false true) converted
     = (Done tt, converted, []).
Proof.
  destruct (convertFilesFromDir_filter_reached (env := env) "in"
              (options xoct false true) fresh) as [Hreached _].
  specialize (Hreached
                [{| entry_path := "in/a.xoct"; is_directory := false |}]
                {| entry_path := "in/b.raw"; is_directory := false |}
                [] fresh [] eq_refl eq_refl).
  cbv in Hreached. destruct Hreached as (Hconv & _).
  destruct (convertFilesFromDir_filter_reached (env := env) "in"
              (options xoct false true) converted) as [_ Hfix].
  split; [reflexivity |]. split; [reflexivity |].
  split; [exact (proj2 Hconv eq_refl) |].
  apply Hfix. intros entry Hin _.
  destruct Hin as [<-|[<-|[]]]; reflexivity.
Defined.


(** ** Failing loads *)

(** C6 as stated fails.  The load of [in/a.raw] fails; nothing is
    written to [std::cerr] and the walk ends there, although [in/b.raw]
    is a loadable scan whose destination is free and which the walk
    converts when [in/a.raw] is not in its way.  And a load that comes
    back with an empty record, as that of the text file [notes.txt]
    does, is no reason for [convertFile] to skip the file or to report
    anything: it writes the empty record to [notes.xoct]. *)
Lemma failing_load_counterexample :
  openFile "in/a.raw" (optFileRead (options xoct false false)) broken_first
    = LoadError
  /\ convertFilesFromDir "in" (options xoct false false) broken_first
     = (Raised, broken_first,
        [EvIsLoadable "in/a.raw" true; EvOpenFile "in/a.raw"])
  /\ errors (snd (convertFilesFromDir "in" (options xoct false false) broken_first))
     = []
  /\ ~ In "in/b.raw"
       (conversions (snd (convertFilesFromDir "in" (options xoct false false)
                            broken_first)))
  /\ conversions (snd (convertFilesFromDir "in" (options xoct false false)
                         [("in/b.raw", Scan P42)]))
     = ["in/b.raw"]
  /\ convertFile "notes.txt" (options xoct false false) [("notes.txt", Other)]
     = (Done tt, [("notes.txt", Other); ("notes.xoct", Scan [])],
        [EvOpenFile "notes.txt"; EvCout (Zieldatei "notes.xoct");
         EvWriteFile "notes.xoct" [] true]).
Proof.
  repeat split. simpl. intros [H|[]]. discriminate.
Qed.

(** C7 as stated fails.  [in/b.raw] is an entry of the walk, no
    directory, with an extension other than the target's, and the
    codec's probe accepts it in the world the walk starts in, which is
    also the world it ends in; yet the walk does not convert it,
    because the load of the entry before it raises. *)
Lemma walk_cut_short_counterexample :
  recursive_directory_iterator "in" broken_first
    = [{| entry_path := "in/a.raw"; is_directory := false |};
       {| entry_path := "in/b.raw"; is_directory := false |}]
  /\ bfs.extension "in/b.raw" <> getExtention xoct
  /\ isLoadable "in/b.raw" broken_first = true
  /\ snd (fst (convertFilesFromDir "in" (options xoct false false) broken_first))
     = broken_first
  /\ ~ In "in/b.raw"
       (conversions (snd (convertFilesFromDir "in" (options xoct false false)
                            broken_first))).
Proof.
  split; [reflexivity |]. split; [discriminate |].
  split; [reflexivity |]. split; [reflexivity |].
  simpl. intros [H|[]]. discriminate.
Qed.

Lemma convertFile_errors_isolated_witness :
  (convertFile "ro/b.raw" (options xoct false false) read_only_first
     = (Done tt, read_only_first,
        [EvOpenFile "ro/b.raw"; EvCout (Zieldatei "ro/P42_3_7.xoct");
         EvWriteFile "ro/P42_3_7.xoct" P42 false;
         EvCerr (write_not_successful "ro/P42_3_7.xoct")])
   /\ exists w' t,
        convertFilesFromDir "ro" (options xoct false false) read_only_first
        = let '(r, w'', t') :=
            directory_loop
              [{| entry_path := "ro/sub/c.raw"; is_directory := false |}]
              (options xoct false false) w' in
          (r, w'', t ++ t'))
  /\ convertFile "in/a.raw" (options xoct false false) broken_first
     = (Raised, broken_first, [EvOpenFile "in/a.raw"])
  /\ exists_ (destination P42 "in/b.raw" (into "locked" (options xoct false false)))
       broken_first = Raised
  /\ convertFile "in/b.raw" (into "locked" (options xoct false false)) broken_first
     = (Raised, broken_first, [EvOpenFile "in/b.raw"]).
Proof.
  pose proof (convertFile_errors_isolated (env := env) "ro/b.raw"
                (options xoct false false) read_only_first) as [H _].
  specialize (H P42 false eq_refl eq_refl). cbv zeta in H.
  destruct H as [_ Hwalk].
  pose proof (convertFile_errors_isolated (env := env) "in/a.raw"
                (options xoct false false) broken_first) as [_ H'].
  destruct (H' (or_introl eq_refl)) as [Hraise _].
  pose proof (convertFile_errors_isolated (env := env) "in/b.raw"
                (into "locked" (options xoct false false)) broken_first)
    as [_ H''].
  destruct (H'' (or_intror (ex_intro _ P42 (conj eq_refl eq_refl))))
    as [Hlocked _].
  split; [split |].
  - reflexivity.
  - exact (Hwalk {| entry_path := "ro/b.raw"; is_directory := false |}
                 [{| entry_path := "ro/sub/c.raw"; is_directory := false |}]
                 eq_refl).
  - split; [exact Hraise |]. split; [reflexivity | exact Hlocked].
Defined.

(** * Further properties *)

(** ** Characters of a string *)

Lemma length_append (a b : string) :
  String.length (a +:+ b) = String.length a + String.length b.
Proof. induction a as [|x a IH]; simpl; [reflexivity | now rewrite IH]. Qed.

Lemma no_char_append (c : ascii) (a b : string) :
  no_char c (a +:+ b) = no_char c a && no_char c b.
Proof.
  induction a as [|x a IH]; simpl; [reflexivity |].
  now rewrite IH, andb_assoc.
Qed.

Lemma rsplit_no_char (c : ascii) (s : string) :
  no_char c s = true -> rsplit c s = None.
Proof.
  induction s as [|a s IH]; simpl; [reflexivity |].
  rewrite andb_true_iff, negb_true_iff. intros [Ha Hs].
  now rewrite (IH Hs), Ha.
Qed.

(** Cutting at the last [c] when what follows it has no [c]. *)
Lemma rsplit_append_sep (c : ascii) (a b : string) :
  no_char c b = true -> rsplit c (a +:+ String c b) = Some (a, b).
Proof.
  intros Hb. induction a as [|x a IH]; simpl.
  - now rewrite (rsplit_no_char _ _ Hb), Ascii.eqb_refl.
  - now rewrite IH.
Qed.

(** Appending a string without [c] moves no cut. *)
Lemma rsplit_append_no (c : ascii) (a b : string) :
  no_char c b = true ->
  rsplit c (a +:+ b) =
    match rsplit c a with
    | Some (l, r) => Some (l, r +:+ b)
    | None => None
    end.
Proof.
  intros Hb. induction a as [|x a IH]; simpl.
  - apply rsplit_no_char, Hb.
  - rewrite IH. destruct (rsplit c a) as [[l r]|]; [reflexivity |].
    now destruct (Ascii.eqb x c).
Qed.

Lemma string_of_uint_no_underscore (u : Decimal.uint) :
  no_char "_" (NilEmpty.string_of_uint u) = true.
Proof. induction u; simpl; auto. Qed.

(** A number in decimal has no underscore in it. *)
Lemma lexical_cast_no_underscore (z : Z) : no_char "_" (lexical_cast z) = true.
Proof.
  unfold lexical_cast, NilZero.string_of_int, NilZero.string_of_uint.
  destruct (Z.to_int z) as [u|u]; destruct u; simpl;
    try reflexivity; apply string_of_uint_no_underscore.
Qed.

Lemma lexical_cast_inj (z z' : Z) : lexical_cast z = lexical_cast z' -> z = z'.
Proof.
  intros H. apply (f_equal read_decimal) in H.
  rewrite !read_decimal_lexical_cast in H. congruence.
Qed.

(** An extension made of a dot and at least two characters that are
    neither dots nor separators is the extension of every path it is
    appended to. *)
Lemma extension_append (base e : string) :
  no_char bfs.dot e = true -> no_char bfs.slash e = true ->
  2 <= String.length e ->
  bfs.extension (base +:+ String bfs.dot e) = String bfs.dot e.
Proof.
  intros Hdot Hslash Hlen.
  assert (Hname : exists name,
             bfs.filename (base +:+ String bfs.dot e) = name +:+ String bfs.dot e).
  { unfold bfs.filename. rewrite rsplit_append_no by (simpl; exact Hslash).
    destruct (rsplit bfs.slash base) as [[l r]|]; [| now exists base].
    exists r. now destruct r. }
  destruct Hname as [name Hname].
  unfold bfs.extension. rewrite Hname.
  assert (Hlong : 3 <= String.length (name +:+ String bfs.dot e)).
  { rewrite length_append. simpl. lia. }
  destruct (String.eqb_spec (name +:+ String bfs.dot e) ".") as [E|_];
    [rewrite E in Hlong; simpl in Hlong; lia |].
  destruct (String.eqb_spec (name +:+ String bfs.dot e) "..") as [E|_];
    [rewrite E in Hlong; simpl in Hlong; lia |].
  simpl orb. cbv iota. now rewrite rsplit_append_sep.
Qed.

(** ** Formats and extensions *)

(** X1. The format names [main] accepts are the extensions of
    [getExtention] without their dot, no other string is accepted, and
    no two formats share an extension. *)
Theorem outputFormat_of_string_getExtention :
  (forall (s : string) (format : OutputFormat),
     outputFormat_of_string s = Some format <->
     getExtention format = String "." s)
  /\ (forall format format' : OutputFormat,
        getExtention format = getExtention format' -> format = format').
Proof.
  split.
  - intros s format. unfold outputFormat_of_string. split.
    + destruct (String.eqb_spec s "xoct") as [->|_]; [now intros [= <-] |].
      destruct (String.eqb_spec s "octbin") as [->|_]; [now intros [= <-] |].
      destruct (String.eqb_spec s "img") as [->|_]; [now intros [= <-] |].
      discriminate.
    + destruct format; intros [= <-]; reflexivity.
  - intros [] []; simpl; intros H; try reflexivity; discriminate.
Qed.

Section Naming.

Context {Series : Type}.
Implicit Types (octdata : OCT Series) (p : Patient Series).

Lemma createFilename_of_key octdata (sourceFilename : bfs.path) opt
    (id : string) (studyId seriesId : Z) :
  naming_key octdata = Some (id, studyId, Some seriesId) ->
  createFilename octdata sourceFilename opt =
    (((if empty id then "unknown" else id) +:+ "_" +:+ lexical_cast studyId)
     +:+ String "_" (lexical_cast seriesId))
    +:+ (if addOldFilename opt then "_" +:+ bfs.stem sourceFilename
         else EmptyString).
Proof.
  unfold naming_key, createFilename.
  destruct octdata as [|[k [p|]] rest]; try discriminate.
  destruct (studies p) as [|[sid [s|]] studies']; try discriminate.
  destruct (series s) as [|[serid ser] series']; try discriminate.
  intros [= <- <- <-].
  destruct (addOldFilename opt); rewrite ?append_empty_r, ?append_assoc;
    reflexivity.
Qed.

Lemma createFilename_stem octdata (filename filename' : bfs.path) opt :
  bfs.stem filename = bfs.stem filename' ->
  createFilename octdata filename opt = createFilename octdata filename' opt.
Proof.
  unfold createFilename, bfs.generic_string. now intros ->.
Qed.

(** X2. [createFilename] reads nothing of a record but the id of the
    first patient, the id of its first study and the id of that study's
    first series, and nothing of the source path but its stem: records
    that agree on these get the same name, whatever else they hold. *)
Theorem createFilename_naming_key
    octdata (octdata' : OCT Series) (sourceFilename sourceFilename' : bfs.path)
    opt :
  naming_key octdata = naming_key octdata' ->
  bfs.stem sourceFilename = bfs.stem sourceFilename' ->
  createFilename octdata sourceFilename opt =
  createFilename octdata' sourceFilename' opt.
Proof.
  unfold naming_key, createFilename, bfs.generic_string.
  intros Hkey ->.
  destruct octdata as [|[k [p|]] rest];
    destruct octdata' as [|[k' [p'|]] rest']; try reflexivity;
    try (destruct (studies p) as [|[sid s] st]; [reflexivity | discriminate]);
    try (destruct (studies p') as [|[sid' s'] st']; [reflexivity | discriminate]).
  destruct (studies p) as [|[sid s] st];
    destruct (studies p') as [|[sid' s'] st']; try reflexivity;
    try discriminate.
  injection Hkey as -> -> Hs.
  destruct s as [s|]; destruct s' as [s'|];
    try (destruct (series s) as [|[serid ser] se]);
    try (destruct (series s') as [|[serid' ser'] se']);
    try discriminate; try reflexivity.
  now injection Hs as ->.
Qed.

Lemma naming_key_anonymisingOct octdata :
  naming_key (anonymisingOct octdata) = naming_key octdata.
Proof.
  destruct octdata as [|[k [p|]] rest]; try reflexivity.
  unfold anonymisingOct, naming_key. cbn [map anonymisingPair].
  destruct p as [id sn fn ti [e y m d] st]. unfold anonymisingPatient.
  destruct e; reflexivity.
Qed.

(** X3. Anonymisation does not change the name of a record: the patient
    id stays in the file name of an anonymised scan. *)
Theorem createFilename_anonymisingOct octdata (sourceFilename : bfs.path) opt :
  createFilename (anonymisingOct octdata) sourceFilename opt =
  createFilename octdata sourceFilename opt.
Proof.
  destruct octdata as [|[k [p|]] rest]; try reflexivity.
  unfold anonymisingOct, createFilename. cbn [map anonymisingPair].
  destruct p as [id sn fn ti [e y m d] st]. unfold anonymisingPatient.
  destruct e; reflexivity.
Qed.

(** X4. Without [addOldFilename], the names of two records that have a
    first patient, study and series are equal exactly when the records
    agree on the patient id (an empty id counting as "unknown"), the
    study id and the series id. *)
Theorem createFilename_injective
    octdata (octdata' : OCT Series) (sourceFilename sourceFilename' : bfs.path)
    opt (id id' : string) (studyId studyId' seriesId seriesId' : Z) :
  naming_key octdata = Some (id, studyId, Some seriesId) ->
  naming_key octdata' = Some (id', studyId', Some seriesId') ->
  addOldFilename opt = false ->
  createFilename octdata sourceFilename opt =
    createFilename octdata' sourceFilename' opt <->
  (if empty id then "unknown" else id) = (if empty id' then "unknown" else id')
  /\ studyId = studyId' /\ seriesId = seriesId'.
Proof.
  intros Hk Hk' Hold.
  rewrite (createFilename_of_key _ sourceFilename opt Hk),
    (createFilename_of_key _ sourceFilename' opt Hk'), Hold, !append_empty_r.
  split.
  - intros H.
    apply (f_equal (rsplit "_")) in H.
    rewrite !rsplit_append_sep in H by apply lexical_cast_no_underscore.
    injection H as H Hser.
    apply (f_equal (rsplit "_")) in H.
    cbn [String.append] in H.
    rewrite !rsplit_append_sep in H by apply lexical_cast_no_underscore.
    injection H as Hid Hst.
    auto using lexical_cast_inj.
  - now intros (-> & -> & ->).
Qed.

(** X5. With an output directory set, the destination depends on the
    source path through its stem only: sources with the same stem in
    different directories are sent to one destination when their
    records agree. *)
Theorem destination_outputPath
    octdata (filename filename' : bfs.path) opt :
  empty (outputPath opt) = false ->
  bfs.stem filename = bfs.stem filename' ->
  destination octdata filename opt = destination octdata filename' opt.
Proof.
  intros Hout Hstem. unfold destination. rewrite Hout.
  now rewrite (createFilename_stem octdata filename filename' opt Hstem).
Qed.

End Naming.

(** ** What a run writes *)

Section Writes.

Context {Series W : Type} {env : Environment Series W}.
Implicit Types (w : W) (t : list (event Series)) (opt : Options)
  (filename : bfs.path) (dir : list directory_entry).

Lemma destination_extension (octdata : OCT Series) filename opt :
  bfs.extension (destination octdata filename opt) =
  getExtention (outputFormat opt).
Proof.
  unfold destination.
  destruct (outputFormat opt);
    [ apply (extension_append _ "xoct")
    | apply (extension_append _ "octbin")
    | apply (extension_append _ "img") ];
    try reflexivity; simpl; lia.
Qed.

Lemma writes_app t1 t2 : writes (t1 ++ t2) = writes t1 ++ writes t2.
Proof.
  induction t1 as [|[] t1 IH]; simpl; rewrite ?IH; reflexivity.
Qed.

Lemma errors_app t1 t2 : errors (t1 ++ t2) = errors t1 ++ errors t2.
Proof.
  induction t1 as [|[] t1 IH]; simpl; rewrite ?IH; reflexivity.
Qed.

Lemma in_writes t (d : bfs.path) :
  In d (writes t) -> exists octdata ok, In (EvWriteFile d octdata ok) t.
Proof.
  induction t as [|e t IH]; [intros [] |].
  destruct e; simpl; try (intros H; destruct (IH H) as (o & ok & Hin);
                          exists o, ok; now right).
  intros [<-|H].
  - eexists _, _. left. reflexivity.
  - destruct (IH H) as (o & ok & Hin). exists o, ok. now right.
Qed.

Lemma in_written_records t (octdata : OCT Series) :
  In octdata (written_records t) ->
  exists d ok, In (EvWriteFile d octdata ok) t.
Proof.
  induction t as [|e t IH]; [intros [] |].
  destruct e; simpl; try (intros H; destruct (IH H) as (d & ok & Hin);
                          exists d, ok; now right).
  intros [<-|H].
  - eexists _, _. left. reflexivity.
  - destruct (IH H) as (d & ok & Hin). exists d, ok. now right.
Qed.

Lemma convertFile_write_shape filename opt w e :
  In e (snd (convertFile filename opt w)) -> write_shape opt e.
Proof.
  rewrite convertFile_run.
  destruct (openFile filename (optFileRead opt) w) as [octdata|].
  - cbv zeta. destruct (exists_ _ w) as [[|]|].
    + simpl. intros [<-|[<-|[]]]; exact I.
    + destruct (writeFile _ _ _ w) as [ok w']. simpl.
      intros [<-|[<-|[<-|H]]]; try exact I.
      * simpl. now exists octdata, filename.
      * destruct ok; [destruct H | destruct H as [<-|[]]; exact I].
    + simpl. intros [<-|[]]. exact I.
  - simpl. intros [<-|[]]. exact I.
Qed.

Lemma directory_loop_write_shape dir opt w e :
  In e (snd (directory_loop dir opt w)) -> write_shape opt e.
Proof.
  revert w. induction dir as [|entry dir IH]; intros w; [intros [] |].
  rewrite directory_loop_cons. cbv zeta.
  destruct (candidate opt entry); [| apply IH].
  destruct (isLoadable (entry_path entry) w).
  - pose proof (convertFile_write_shape (entry_path entry) opt w e) as Hc.
    destruct (convertFile (entry_path entry) opt w) as [[[[]|] w1] t1].
    + specialize (IH w1).
      destruct (directory_loop dir opt w1) as [[r w2] t2].
      simpl in *. intros [<-|H]; [exact I |].
      apply in_app_or in H. tauto.
    + simpl in *. intros [<-|H]; [exact I | auto].
  - specialize (IH w).
    destruct (directory_loop dir opt w) as [[r w2] t2].
    simpl in *. intros [<-|H]; [exact I | auto].
Qed.

Lemma written_anonymous (octdata : OCT Series) opt :
  anonymising opt = true ->
  all_anonymous (written octdata opt)
  /\ anonymisingOct (written octdata opt) = written octdata opt.
Proof.
  intros Ha. unfold written. rewrite Ha. split.
  - unfold all_anonymous, anonymisingOct. apply Forall_forall.
    intros e He. apply in_map_iff in He. destruct He as ([k [pat|]] & <- & _);
      [| exact I].
    simpl. destruct (anonymisingPatient_anonymised pat) as (Hs & Hf & Ht & Hb).
    repeat split; try assumption;
      destruct pat as [id sn fn ti [em y m d] st]; unfold anonymisingPatient;
      simpl in *; destruct em; simpl in *; try discriminate; reflexivity.
  - unfold anonymisingOct. rewrite map_map. apply map_ext.
    intros [k [pat|]]; simpl; [| reflexivity].
    now rewrite anonymisingPatient_idem.
Qed.

(** X6. Every file that [convertFile] or a walk writes carries the
    extension of the target format, so no later walk with that target
    takes it for a file to convert. *)
Theorem writes_target_extension filename (search_here : bfs.path) opt w
    (d : bfs.path) :
  In d (writes (snd (convertFile filename opt w))) \/
  In d (writes (snd (convertFilesFromDir search_here opt w))) ->
  bfs.extension d = getExtention (outputFormat opt)
  /\ candidate opt {| entry_path := d; is_directory := false |} = false.
Proof.
  intros H.
  assert (Hshape : exists (octdata : OCT Series) ok,
             write_shape opt (EvWriteFile d octdata ok)).
  { destruct H as [H|H]; apply in_writes in H; destruct H as (o & ok & H);
      exists o, ok.
    - exact (convertFile_write_shape _ _ _ _ H).
    - exact (directory_loop_write_shape _ _ _ _ H). }
  destruct Hshape as (o & ok & octdata & f & -> & _).
  assert (E := destination_extension octdata f opt).
  split; [exact E |].
  unfold candidate, bfs.neq. simpl. now rewrite E, String.eqb_refl.
Qed.

(** X7. With [anonymising] set, every record that [convertFile] or a
    walk hands to [writeFile] is without surname, forename and title,
    has birthdates of day 1 and month 1 only, and is left as it is by
    another anonymisation. *)
Theorem writes_anonymous filename (search_here : bfs.path) opt w
    (octdata : OCT Series) :
  anonymising opt = true ->
  In octdata (written_records (snd (convertFile filename opt w))) \/
  In octdata (written_records (snd (convertFilesFromDir search_here opt w))) ->
  all_anonymous octdata /\ anonymisingOct octdata = octdata.
Proof.
  intros Ha H.
  assert (Hshape : exists d ok, write_shape opt (EvWriteFile d octdata ok)).
  { destruct H as [H|H]; apply in_written_records in H;
      destruct H as (d & ok & H); exists d, ok.
    - exact (convertFile_write_shape _ _ _ _ H).
    - exact (directory_loop_write_shape _ _ _ _ H). }
  destruct Hshape as (d & ok & o & f & _ & ->).
  now apply written_anonymous.
Qed.

(** X9. Entries that are directories or carry the target extension have
    no part in a walk: it runs as the walk over the remaining entries
    does. *)
Theorem convertFilesFromDir_candidates (search_here : bfs.path) opt w :
  convertFilesFromDir search_here opt w =
  directory_loop
    (filter (candidate opt) (recursive_directory_iterator search_here w))
    opt w.
Proof.
  unfold convertFilesFromDir.
  generalize (recursive_directory_iterator search_here w) at 1 2. intros dir.
  revert w. induction dir as [|entry dir IH]; intros w; [reflexivity |].
  cbn [filter]. destruct (candidate opt entry) eqn:Hc.
  - rewrite !directory_loop_cons. cbv zeta. rewrite Hc.
    destruct (isLoadable (entry_path entry) w).
    + destruct (convertFile (entry_path entry) opt w) as [[[[]|] w1] t1];
        [now rewrite IH | reflexivity].
    + now rewrite IH.
  - rewrite directory_loop_cons. cbv zeta. rewrite Hc. apply IH.
Qed.

(** X10. A walk opens no more files than the enumeration has
    candidates, and attempts at most one write and prints at most one
    error line for each file it opens. *)
Theorem convertFilesFromDir_counts (search_here : bfs.path) opt w :
  let '(_, _, t) := convertFilesFromDir search_here opt w in
  List.length (conversions t) <=
    List.length (filter (candidate opt) (recursive_directory_iterator search_here w))
  /\ List.length (writes t) <= List.length (conversions t)
  /\ List.length (errors t) <= List.length (conversions t).
Proof.
  unfold convertFilesFromDir.
  generalize (recursive_directory_iterator search_here w) at 1 2. intros dir.
  revert w. induction dir as [|entry dir IH]; intros w; [simpl; lia |].
  rewrite directory_loop_cons. cbv zeta. cbn [filter].
  destruct (candidate opt entry); [| apply IH].
  assert (Hc : let '(_, _, t1) := convertFile (entry_path entry) opt w in
               List.length (conversions t1) = 1 /\ List.length (writes t1) <= 1
               /\ List.length (errors t1) <= 1).
  { rewrite convertFile_run.
    destruct (openFile _ _ w) as [octdata|]; [| simpl; lia].
    cbv zeta. destruct (exists_ _ w) as [[|]|]; try (simpl; lia).
    destruct (writeFile _ _ _ w) as [[|] w']; simpl; lia. }
  destruct (isLoadable (entry_path entry) w).
  - destruct (convertFile (entry_path entry) opt w) as [[[[]|] w1] t1].
    + specialize (IH w1).
      destruct (directory_loop dir opt w1) as [[r w2] t2].
      cbn [conversions writes errors List.length].
      rewrite conversions_app, writes_app, errors_app, !List.length_app. lia.
    + cbn [conversions writes errors List.length]. lia.
  - specialize (IH w).
    destruct (directory_loop dir opt w) as [[r w2] t2].
    cbn [conversions writes errors List.length]. lia.
Qed.

End Writes.

(** ** Edges *)

Section Edges.

Context {Series W : Type} {env : Environment Series W}.
Implicit Types (w : W) (opt : Options) (filename : bfs.path).


Lemma anonymisingPatient_fixed (pat : Patient Series) :
  anonymisingPatient pat = pat <-> anonymous pat.
Proof.
  unfold anonymous, anonymisingPatient.
  destruct pat as [id sn fn ti [e y m d] st]; simpl.
  destruct e; simpl; split.
  - intros [= <- <- <-]. repeat split; discriminate.
  - intros (-> & -> & -> & _). reflexivity.
  - intros [= <- <- <- <- <-]. now repeat split.
  - intros (-> & -> & -> & H). now destruct (H eq_refl) as [-> ->].
Qed.

(** X12. The records anonymisation leaves as they are are those whose
    patients all have empty surname, forename and title and a birthdate
    that is empty or has day 1 and month 1. *)
Theorem anonymisingOct_fixed (octData : OCT Series) :
  anonymisingOct octData = octData <-> all_anonymous octData.
Proof.
  unfold anonymisingOct, all_anonymous.
  induction octData as [|[k [pat|]] octData IH]; simpl.
  - split; [constructor | reflexivity].
  - split.
    + intros [= H1 H2]. constructor; [now apply anonymisingPatient_fixed |].
      now apply IH.
    + intros H. inversion H as [|e l Hpat Hrest]; subst.
      apply anonymisingPatient_fixed in Hpat. apply IH in Hrest.
      simpl in Hpat. now rewrite Hpat, Hrest.
  - split.
    + intros [= H]. constructor; [exact I | now apply IH].
    + intros H. inversion H as [|e l _ Hrest]; subst.
      apply IH in Hrest. now rewrite Hrest.
Qed.


End Edges.

(** * The further properties at work *)

Lemma outputFormat_of_string_getExtention_witness :
  outputFormat_of_string "octbin" = Some octbin
  /\ outputFormat_of_string "XOCT" = None
  /\ octbin = octbin.
Proof.
  destruct outputFormat_of_string_getExtention as [H1 H2].
  split; [exact (proj2 (H1 "octbin" octbin) eq_refl) |].
  split; [reflexivity |].
  exact (H2 octbin octbin eq_refl).
Defined.

Lemma createFilename_naming_key_witness :
  naming_key crowded = naming_key P42
  /\ createFilename crowded "a/scan001.raw" (options xoct true false)
     = createFilename P42 "b/c/scan001.oct" (options xoct true false).
Proof.
  split; [reflexivity |].
  exact (createFilename_naming_key crowded P42 "a/scan001.raw"
           "b/c/scan001.oct" (options xoct true false) eq_refl eq_refl).
Defined.

Lemma createFilename_injective_witness :
  createFilename P42 "a.raw" (options xoct false false)
  <> createFilename (scan "P42" "Doe" no_date 3 8) "a.raw" (options xoct false false).
Proof.
  intros H.
  destruct (proj1 (createFilename_injective P42 (scan "P42" "Doe" no_date 3 8)
                     "a.raw" "a.raw" (options xoct false false)
                     eq_refl eq_refl eq_refl) H) as (_ & _ & E).
  discriminate E.
Defined.

Lemma destination_outputPath_witness :
  destination P42 "a/x.raw"
    {| outputFormat := img; addOldFilename := false; anonymising := false;
       outputPath := "out"; optFileRead := optFileRead (options img false false);
       optWrite := optWrite (options img false false) |}
  = destination P42 "b/x.oct"
      {| outputFormat := img; addOldFilename := false; anonymising := false;
         outputPath := "out"; optFileRead := optFileRead (options img false false);
         optWrite := optWrite (options img false false) |}.
Proof.
  exact (destination_outputPath P42 "a/x.raw" "b/x.oct"
           {| outputFormat := img; addOldFilename := false; anonymising := false;
              outputPath := "out";
              optFileRead := optFileRead (options img false false);
              optWrite := optWrite (options img false false) |}
           eq_refl eq_refl).
Defined.

Lemma writes_target_extension_witness :
  writes (snd (convertFilesFromDir "in" (options xoct false true) fresh))
    = ["in/P42_3_7.xoct"]
  /\ bfs.extension "in/P42_3_7.xoct" = ".xoct"
  /\ candidate (options xoct false true)
       {| entry_path := "in/P42_3_7.xoct"; is_directory := false |} = false.
Proof.
  split; [reflexivity |].
  exact (writes_target_extension (env := env) "in/b.raw" "in"
           (options xoct false true) fresh "in/P42_3_7.xoct"
           (or_intror (or_introl eq_refl))).
Defined.

Lemma writes_anonymous_witness :
  written_records (snd (convertFilesFromDir "in" (options xoct false true) fresh))
    = [anonymisingOct P42]
  /\ all_anonymous (anonymisingOct P42)
  /\ anonymisingOct (anonymisingOct P42) = anonymisingOct P42.
Proof.
  split; [reflexivity |].
  exact (writes_anonymous (env := env) "in/b.raw" "in"
           (options xoct false true) fresh (anonymisingOct P42)
           eq_refl (or_intror (or_introl eq_refl))).
Defined.


Lemma anonymisingOct_fixed_witness :
  all_anonymous (anonymisingOct crowded)
  /\ ~ all_anonymous crowded.
Proof.
  split.
  - exact (proj1 (anonymisingOct_fixed (anonymisingOct crowded)) eq_refl).
  - intros H. apply (proj2 (anonymisingOct_fixed crowded)) in H. discriminate H.
Defined.

